(** * docs/example1.py: the accumulator [fact] and the module's top level

    A shallow embedding of [docs/example1.py].  The file is one Python
    module: an [import], two class statements, the function [fact] and a
    block guarded by [__name__ == "__main__"].

    - [fact] is embedded as a function on [Z] that follows the loop of the
      source; as a computation on dynamically typed values with [range]
      the builtin ([fact_py]), which can raise; and as a call in a state
      ([fact_call]), which reads the name [range] from the namespace as
      line 22 does.
    - The statements of the module are computations over the module's
      global namespace and its standard output, in source order. *)

From stdpp Require Import gmap strings list list_numbers pretty.

Set Warnings "-register-all".
Local Open Scope Z_scope.

(** ** The class [Item] (lines 3-9) *)

Record Item := mkItem { id : Z; name : string }.

(** [__init__]: [self.id = 0] and [self.name] the empty string. *)
Definition Item_init : Item := {| id := 0; name := EmptyString |}.

(** [__repr__]: [f"id: {self.id} name: {self.name}"]. *)
Definition Item_repr (self : Item) : string :=
  "id: " +:+ pretty (id self) +:+ " name: " +:+ name self.

(** ** Values of the module *)

(** The functions the module creates: the two methods of [Item], [fact],
    and the lambda of the driver block. *)
Inductive func :=
| Fn_Item_init
| Fn_Item_repr
| Fn_fact
| Fn_lambda.

Inductive value :=
| VNone
| VBool (b : bool)
| VInt (z : Z)
| VStr (s : string)
| VList (l : list value)
| VRange (lo hi : Z)
| VModule (name : string)
| VClass (name : string) (attrs : list (string * value))
| VItem (self : Item)
| VEnumBase
| VFunction (f : func)
| VBuiltin (name : string).

(** The exceptions that the statements of the module can raise.  The
    messages are abridged. *)
Inductive exn :=
| NameError (name : string)
| TypeError (msg : string)
| ValueError (msg : string).

(** [Unmodelled] marks an operation of the Python runtime that the
    embedding gives no rule for (the text of an object whose [repr] holds
    an address, a builtin the module never names). *)
Inductive result (A : Type) :=
| Ok (a : A)
| Raise (e : exn)
| Unmodelled.

Arguments Ok {A} a.
Arguments Raise {A} e.
Arguments Unmodelled {A}.

(** The state a statement runs in: the module's global namespace and what
    has been written to standard output so far. *)
Record state := mkState {
  globals : gmap string value;
  stdout : string
}.

Definition M (A : Type) : Type := state -> result A * state.

Definition ret {A} (a : A) : M A := fun st => (Ok a, st).

Definition raise {A} (e : exn) : M A := fun st => (Raise e, st).

Definition unmodelled {A} : M A := fun st => (Unmodelled, st).

Definition bind {A B} (m : M A) (k : A -> M B) : M B :=
  fun st =>
    match m st with
    | (Ok a, st') => k a st'
    | (Raise e, st') => (Raise e, st')
    | (Unmodelled, st') => (Unmodelled, st')
    end.

Declare Scope py_scope.
Delimit Scope py_scope with py.
Notation "x <- m ;; k" := (bind m (fun x => k))
  (at level 100, m at next level, right associativity) : py_scope.
Notation "m ;; k" := (bind m (fun _ => k))
  (at level 100, right associativity) : py_scope.
Local Open Scope py_scope.

(** ** Names *)

(** The names that the [builtins] module holds on every release that
    accepts the file (the f-string of line 9 needs 3.6): functions and
    types, then constants and exceptions.  Names are case sensitive:
    [list] is a builtin, [List] is not. *)
Definition builtin_names : list string :=
  [ "abs"; "all"; "any"; "ascii"; "bin"; "bool"; "bytearray"; "bytes";
    "callable"; "chr"; "classmethod"; "compile"; "complex"; "delattr";
    "dict"; "dir"; "divmod"; "enumerate"; "eval"; "exec"; "filter"; "float";
    "format"; "frozenset"; "getattr"; "globals"; "hasattr"; "hash"; "hex";
    "id"; "input"; "int"; "isinstance"; "issubclass"; "iter"; "len"; "list";
    "locals"; "map"; "max"; "memoryview"; "min"; "next"; "object"; "oct";
    "open"; "ord"; "pow"; "print"; "property"; "range"; "repr"; "reversed";
    "round"; "set"; "setattr"; "slice"; "sorted"; "staticmethod"; "str";
    "sum"; "super"; "tuple"; "type"; "vars"; "zip";
    "__build_class__"; "__debug__"; "__doc__"; "__import__"; "__loader__";
    "__name__"; "__package__"; "__spec__"; "Ellipsis"; "NotImplemented";
    "ArithmeticError"; "AssertionError"; "AttributeError"; "BaseException";
    "BlockingIOError"; "BrokenPipeError"; "BufferError"; "BytesWarning";
    "ChildProcessError"; "ConnectionAbortedError"; "ConnectionError";
    "ConnectionRefusedError"; "ConnectionResetError"; "DeprecationWarning";
    "EOFError"; "EnvironmentError"; "Exception"; "FileExistsError";
    "FileNotFoundError"; "FloatingPointError"; "FutureWarning";
    "GeneratorExit"; "IOError"; "ImportError"; "ImportWarning";
    "IndentationError"; "IndexError"; "InterruptedError";
    "IsADirectoryError"; "KeyError"; "KeyboardInterrupt"; "LookupError";
    "MemoryError"; "ModuleNotFoundError"; "NameError"; "NotADirectoryError";
    "NotImplementedError"; "OSError"; "OverflowError";
    "PendingDeprecationWarning"; "PermissionError"; "ProcessLookupError";
    "RecursionError"; "ReferenceError"; "ResourceWarning"; "RuntimeError";
    "RuntimeWarning"; "StopAsyncIteration"; "StopIteration"; "SyntaxError";
    "SyntaxWarning"; "SystemError"; "SystemExit"; "TabError";
    "TimeoutError"; "TypeError"; "UnboundLocalError"; "UnicodeDecodeError";
    "UnicodeEncodeError"; "UnicodeError"; "UnicodeTranslateError";
    "UnicodeWarning"; "UserWarning"; "ValueError"; "Warning";
    "ZeroDivisionError" ]%string.

(** The names that the [builtins] module holds only on some releases
    ([breakpoint] from 3.7, [aiter], [anext] and [EncodingWarning] from
    3.10, the exception groups from 3.11, [PythonFinalizationError] from
    3.13), only on one platform ([WindowsError]) or only when the [site]
    module is loaded at start-up. *)
Definition builtin_names_sometimes : list string :=
  [ "aiter"; "anext"; "breakpoint"; "copyright"; "credits"; "exit"; "help";
    "license"; "quit"; "BaseExceptionGroup"; "EncodingWarning";
    "ExceptionGroup"; "PythonFinalizationError"; "WindowsError" ]%string.

Definition is_builtin (name : string) : bool :=
  bool_decide (name ∈ builtin_names).

Definition is_builtin_sometimes (name : string) : bool :=
  bool_decide (name ∈ builtin_names_sometimes).

(** Reading a name: the global namespace first, then the builtins, else
    [NameError].  A name that the builtins hold only sometimes is left to
    the runtime. *)
Definition load_name (name : string) : M value :=
  fun st =>
    match globals st !! name with
    | Some v => (Ok v, st)
    | None =>
        if is_builtin name then (Ok (VBuiltin name), st)
        else if is_builtin_sometimes name then (Unmodelled, st)
        else (Raise (NameError name), st)
    end.

(** Binding a name at module level. *)
Definition store_name (name : string) (v : value) : M unit :=
  fun st => (Ok tt, mkState (<[name := v]> (globals st)) (stdout st)).

(** Writing to standard output. *)
Definition write_stdout (s : string) : M unit :=
  fun st => (Ok tt, mkState (globals st) (stdout st +:+ s)).

(** ** The accumulator [fact] (lines 20-24) *)

(** [range(lo, hi)]: the integers from [lo] up to but excluding [hi];
    empty when [hi <= lo]. *)
Definition range (lo hi : Z) : list Z := seqZ lo (hi - lo).

(** [fact] on integers.
<<
    def fact(n):
        x = 1
        for i in range(1, n + 1):
            x += i
        return x
>> *)
Definition fact (n : Z) : Z :=
  let x := 1 in
  let x := foldl (fun x i => x + i) x (range 1 (n + 1)) in
  x.

(** The integer a value stands for where Python wants an integer
    ([bool] is a subclass of [int]). *)
Definition as_int (v : value) : option Z :=
  match v with
  | VInt z => Some z
  | VBool b => Some (if b then 1 else 0)
  | _ => None
  end.

(** An object of the builtins.  The embedding knows such an object by its
    name only: it does not say which of them are numbers, texts or
    iterables ([__debug__] is a bool, [__doc__] a string), so arithmetic
    and iteration on them are left to the runtime. *)
Definition is_builtin_object (v : value) : bool :=
  match v with
  | VBuiltin _ => true
  | _ => false
  end.

(** The message of the [TypeError] that [a + b] raises; it goes by the
    left operand. *)
Definition add_error (a : value) : string :=
  match a with
  | VStr _ => "can only concatenate str"
  | VList _ => "can only concatenate list"
  | _ => "unsupported operand type(s) for +"
  end.

(** [a + b] on values: integers add, strings and lists concatenate, any
    other pair of operands raises [TypeError]. *)
Definition py_add (a b : value) : M value :=
  if is_builtin_object a || is_builtin_object b then unmodelled
  else
    match as_int a, as_int b with
    | Some x, Some y => ret (VInt (x + y))
    | _, _ =>
        match a, b with
        | VStr s, VStr t => ret (VStr (s +:+ t))
        | VList l, VList k => ret (VList (l ++ k))
        | _, _ => raise (TypeError (add_error a))
        end
    end.

(** [range(a, b)] on values: both bounds must be integers. *)
Definition py_range (a b : value) : M value :=
  if is_builtin_object a || is_builtin_object b then unmodelled
  else
    match as_int a, as_int b with
    | Some lo, Some hi => ret (VRange lo hi)
    | _, _ => raise (TypeError "object cannot be interpreted as an integer")
    end.

(** The elements a [for] loop draws from a value: the integers of a
    range, the elements of a list, the characters of a string, the members
    of an enumeration ([enum.Enum] has none). *)
Definition py_iter (v : value) : M (list value) :=
  match v with
  | VRange lo hi => ret (VInt <$> range lo hi)
  | VList l => ret l
  | VStr s =>
      ret ((fun c => VStr (String c EmptyString)) <$> String.list_ascii_of_string s)
  | VEnumBase => ret []
  | VBuiltin _ => unmodelled
  | _ => raise (TypeError "object is not iterable")
  end.

(** A [for] loop whose body updates one local variable, here the [x] of
    [x += i]. *)
Fixpoint for_each (body : value -> value -> M value) (l : list value)
    (x : value) : M value :=
  match l with
  | [] => ret x
  | i :: l' => x' <- body x i ;; for_each body l' x'
  end.

(** [fact] on values, with [range] the builtin: the module never binds
    that name (see [module_keeps_range]).  [fact_call] below reads the
    name from the namespace, and is [fact_py] wherever the name is not
    bound (see [fact_call_builtin_range]).  [x] holds an integer all
    along, so [x += i] is [x = x + i]. *)
Definition fact_py (n : value) : M value :=
  let x := VInt 1 in
  hi <- py_add n (VInt 1) ;;
  r <- py_range (VInt 1) hi ;;
  items <- py_iter r ;;
  x <- for_each (fun x i => py_add x i) items x ;;
  ret x.

(** The lambda of line 29, [lambda n: fact(n)].  [fact] is the function
    of line 20: the module binds that name once (see [stmt_def_fact]). *)
Definition lambda_py (n : value) : M value := fact_py n.

(** ** Text of a value *)

(** The line feed character. *)
Definition newline : string := String (Ascii.ascii_of_nat 10) EmptyString.

Definition join (sep : string) (l : list string) : string :=
  match l with
  | [] => EmptyString
  | s :: l' => foldl (fun acc t => acc +:+ sep +:+ t) s l'
  end.

(** [repr(v)].  [None] where the text is not modelled: the quoting of a
    string, and objects whose text holds an address or a module path. *)
Fixpoint py_repr (v : value) : option string :=
  match v with
  | VNone => Some "None"%string
  | VBool b => Some (if b then "True" else "False")%string
  | VInt z => Some (pretty z)
  | VList l =>
      let fix elems (l : list value) : option (list string) :=
        match l with
        | [] => Some []
        | x :: l' =>
            match py_repr x, elems l' with
            | Some s, Some ss => Some (s :: ss)
            | _, _ => None
            end
        end in
      match elems l with
      | Some ss => Some ("[" +:+ join ", " ss +:+ "]")
      | None => None
      end
  | VRange lo hi => Some ("range(" +:+ pretty lo +:+ ", " +:+ pretty hi +:+ ")")
  | VItem self => Some (Item_repr self)
  | _ => None
  end.

(** [str(v)]: a string is its own text, everything else uses [repr]. *)
Definition py_str (v : value) : option string :=
  match v with
  | VStr s => Some s
  | _ => py_repr v
  end.

(** ** Calls *)

(** [print(args..., end=e)]: the texts of the arguments separated by one
    space, then [end] (a newline when not given).  Nothing is written when
    the text of an argument is not modelled. *)
Definition builtin_print (args : list value) (kwargs : list (string * value))
    : M value :=
  match mapM py_str args with
  | None => unmodelled
  | Some ss =>
      match kwargs with
      | [] => write_stdout (join " " ss +:+ newline) ;; ret VNone
      | [(k, VStr e)] =>
          if String.eqb k "end"
          then write_stdout (join " " ss +:+ e) ;; ret VNone
          else unmodelled
      | _ => unmodelled
      end
  end.

(** The Python releases differ in the exception that [Enum(value)] raises
    on an enumeration without members. *)
Inductive py_version :=
| Py_upto_3_11
| Py_from_3_12.

(** [enum.Enum] itself declares no members: its tables of members, by
    name and by value, are empty. *)
Definition Enum_value2member_map : list (value * value) := [].

(** [enum.Enum(v)] with one positional argument.  Up to 3.11 this is a
    lookup of [v] among the members, which raises [ValueError] when no
    member has that value.  From 3.12 the call raises [TypeError] when the
    enumeration has no members. *)
Definition Enum_call (ver : py_version) (v : value) : M value :=
  match Enum_value2member_map with
  | [] =>
      match ver with
      | Py_upto_3_11 => raise (ValueError "is not a valid Enum")
      | Py_from_3_12 => raise (TypeError "<enum 'Enum'> has no members")
      end
  | _ :: _ => unmodelled
  end.

(** Running a function of the module on the argument bound to its one
    parameter. *)
Definition call_function (f : func) (a : value) : M value :=
  match f with
  | Fn_fact => fact_py a
  | Fn_lambda => lambda_py a
  | Fn_Item_repr =>
      match a with
      | VItem self => ret (VStr (Item_repr self))
      | _ => unmodelled
      end
  | Fn_Item_init => unmodelled
  end.

(** Calling a value with positional and keyword arguments.  Every
    function of the module takes exactly one parameter: with no positional
    argument, or with more than one, the call raises [TypeError] and the
    body does not run. *)
Definition call (ver : py_version) (f : value) (args : list value)
    (kwargs : list (string * value)) : M value :=
  match f with
  | VBuiltin b =>
      if String.eqb b "print" then builtin_print args kwargs
      else if String.eqb b "range" then
        match args, kwargs with
        | [a; b], [] => py_range a b
        | _, _ => unmodelled
        end
      else unmodelled
  | VFunction fn =>
      match args, kwargs with
      | [a], [] => call_function fn a
      | [], [] => raise (TypeError "missing 1 required positional argument")
      | _ :: _ :: _, [] => raise (TypeError "takes 1 positional argument")
      | _, _ :: _ => unmodelled
      end
  | VEnumBase =>
      match args, kwargs with
      | [v], [] => Enum_call ver v
      | _, _ => unmodelled
      end
  | VClass c attrs =>
      if String.eqb c "Item" then
        match args, kwargs with
        | [], [] => ret (VItem Item_init)
        | _, _ => raise (TypeError "__init__() takes 1 positional argument")
        end
      else
        match args, kwargs with
        | [], [] => unmodelled
        | _, _ => raise (TypeError "takes no arguments")
        end
  | VNone | VBool _ | VInt _ | VStr _ | VList _ | VRange _ _ | VModule _
  | VItem _ => raise (TypeError "object is not callable")
  end.

(** A call of [fact] in a state (lines 20-24).  Line 22 reads the free
    name [range] each time it runs, from the module's namespace first and
    then from the builtins, and calls whatever the name holds on [1] and
    [n + 1]. *)
Definition fact_call (ver : py_version) (n : value) : M value :=
  let x := VInt 1 in
  range_ <- load_name "range" ;;
  hi <- py_add n (VInt 1) ;;
  r <- call ver range_ [VInt 1; hi] [] ;;
  items <- py_iter r ;;
  x <- for_each (fun x i => py_add x i) items x ;;
  ret x.

Fixpoint assoc (k : string) (l : list (string * value)) : option value :=
  match l with
  | [] => None
  | (k', v) :: l' => if String.eqb k k' then Some v else assoc k l'
  end.

(** [v.attr], for the attributes the module defines or names.  Any other
    attribute is left to the runtime. *)
Definition load_attr (v : value) (attr : string) : M value :=
  match v with
  | VModule m =>
      if String.eqb m "enum" && String.eqb attr "Enum" then ret VEnumBase
      else unmodelled
  | VClass _ attrs =>
      match assoc attr attrs with
      | Some a => ret a
      | None => unmodelled
      end
  | VItem self =>
      if String.eqb attr "id" then ret (VInt (id self))
      else if String.eqb attr "name" then ret (VStr (name self))
      else unmodelled
  | _ => unmodelled
  end.

(** ** The statements of the module, in source order *)

(** Line 1: [import enum]. *)
Definition stmt_import_enum : M unit :=
  store_name "enum" (VModule "enum").

(** Lines 3-9: [class Item]. *)
Definition Item_class : value :=
  VClass "Item"
    [ ("__init__", VFunction Fn_Item_init);
      ("__repr__", VFunction Fn_Item_repr) ]%string.

Definition stmt_class_Item : M unit :=
  store_name "Item" Item_class.

(** Lines 14-17: the class body that the decorator receives. *)
Definition MenuOptions_class : value :=
  VClass "MenuOptions"
    [ ("Option1", VInt 0); ("Option2", VInt 1); ("Option3", VInt 2) ]%string.

(** Lines 13-17: [@enum.Enum class MenuOptions].  The decorator expression
    is evaluated first, then the class is built, then the decorator is
    called on the class and its result is bound to the name. *)
Definition stmt_class_MenuOptions (ver : py_version) : M unit :=
  enum_ <- load_name "enum" ;;
  decorator <- load_attr enum_ "Enum" ;;
  decorated <- call ver decorator [MenuOptions_class] [] ;;
  store_name "MenuOptions" decorated.

(** Lines 20-24: [def fact]. *)
Definition stmt_def_fact : M unit :=
  store_name "fact" (VFunction Fn_fact).

(** Lines 28-31: the driver block.
<<
    nums = List.of(1, 2, 3, 4, 5)
    facts = nums.map(lambda n: fact(n))
    print(nums, end='\n')
    print(nums, end='\n')
>> *)
Definition driver (ver : py_version) : M unit :=
  List_ <- load_name "List" ;;
  of_ <- load_attr List_ "of" ;;
  nums <- call ver of_ [VInt 1; VInt 2; VInt 3; VInt 4; VInt 5] [] ;;
  store_name "nums" nums ;;
  nums <- load_name "nums" ;;
  map_ <- load_attr nums "map" ;;
  facts <- call ver map_ [VFunction Fn_lambda] [] ;;
  store_name "facts" facts ;;
  print_ <- load_name "print" ;;
  nums <- load_name "nums" ;;
  call ver print_ [nums] [("end"%string, VStr newline)] ;;
  print_ <- load_name "print" ;;
  nums <- load_name "nums" ;;
  call ver print_ [nums] [("end"%string, VStr newline)] ;;
  ret tt.

(** [__name__ == "__main__"]. *)
Definition is_main (v : value) : bool :=
  match v with
  | VStr s => String.eqb s "__main__"
  | _ => false
  end.

(** Line 27: the guard of the driver block. *)
Definition stmt_main (ver : py_version) : M unit :=
  name_ <- load_name "__name__" ;;
  if is_main name_ then driver ver else ret tt.

(** The definitions of the module: everything before the guard. *)
Definition module_defs (ver : py_version) : M unit :=
  stmt_import_enum ;;
  stmt_class_Item ;;
  stmt_class_MenuOptions ver ;;
  stmt_def_fact.

(** The whole module. *)
Definition module_body (ver : py_version) : M unit :=
  module_defs ver ;;
  stmt_main ver.

(** The state the module starts in.  [modname] is the value the runtime
    gives [__name__]: ["__main__"] when the file is run as the top-level
    program, the module's name when it is imported.  The other entries the
    runtime puts in the namespace, all spelt with double underscores, are
    not read by the module and are left out. *)
Definition initial_state (modname : string) : state :=
  mkState {[ "__name__"%string := VStr modname ]} EmptyString.

Definition run_module (ver : py_version) (modname : string)
    : result unit * state :=
  module_body ver (initial_state modname).

(** The exit status of the interpreter: 0 when the module ran to its end,
    1 when an exception was left uncaught. *)
Definition exit_status (r : result unit) : option Z :=
  match r with
  | Ok _ => Some 0
  | Raise _ => Some 1
  | Unmodelled => None
  end.

(** ** What the specification expects of the driver *)

(** The sequence the driver is meant to build. *)
Definition nums_expected : list Z := [1; 2; 3; 4; 5].

(** The text the specification expects on standard output: the sequence,
    a newline, twice. *)
Definition stdout_expected : string :=
  "[1, 2, 3, 4, 5]" +:+ newline +:+ "[1, 2, 3, 4, 5]" +:+ newline.

(** ** States of the run *)

(** The state in which the statement of line 13 runs. *)
Definition state_at_MenuOptions (modname : string) : state :=
  mkState
    (<[ "Item"%string := Item_class ]>
       (<[ "enum"%string := VModule "enum" ]>
          {[ "__name__"%string := VStr modname ]}))
    EmptyString.

(** The exception of line 13. *)
Definition MenuOptions_error (ver : py_version) : exn :=
  match ver with
  | Py_upto_3_11 => ValueError "is not a valid Enum"
  | Py_from_3_12 => TypeError "<enum 'Enum'> has no members"
  end.

(** A state in which every definition of the module is bound, as if the
    decorator of line 13 had returned the class it was given. *)
Definition state_at_main (modname : string) : state :=
  mkState
    (<[ "fact"%string := VFunction Fn_fact ]>
       (<[ "MenuOptions"%string := MenuOptions_class ]>
          (globals (state_at_MenuOptions modname))))
    EmptyString.

(** ** The two halves of the driver block *)

(** Lines 28-29: building [nums] and [facts]. *)
Definition driver_build (ver : py_version) : M unit :=
  List_ <- load_name "List" ;;
  of_ <- load_attr List_ "of" ;;
  nums <- call ver of_ [VInt 1; VInt 2; VInt 3; VInt 4; VInt 5] [] ;;
  store_name "nums" nums ;;
  nums <- load_name "nums" ;;
  map_ <- load_attr nums "map" ;;
  facts <- call ver map_ [VFunction Fn_lambda] [] ;;
  store_name "facts" facts.

(** Lines 30-31: the two [print] statements. *)
Definition driver_prints (ver : py_version) : M unit :=
  print_ <- load_name "print" ;;
  nums <- load_name "nums" ;;
  call ver print_ [nums] [("end"%string, VStr newline)] ;;
  print_ <- load_name "print" ;;
  nums <- load_name "nums" ;;
  call ver print_ [nums] [("end"%string, VStr newline)] ;;
  ret tt.

(** ** Reference notions used in the statements *)

(** The factorial, the function the name [fact] suggests: the product of
    the integers that [fact] adds up. *)
Definition factorial (n : Z) : Z :=
  foldl (fun x i => x * i) 1 (range 1 (n + 1)).

(** The space character. *)
Definition space : Ascii.ascii := Ascii.ascii_of_nat 32.

(** A text without a space character. *)
Fixpoint no_space (s : string) : Prop :=
  match s with
  | EmptyString => True
  | String c s' => c <> space /\ no_space s'
  end.

(** * Properties *)

(** ** The accumulator on integers *)

Lemma range_empty (lo hi : Z) : hi <= lo -> range lo hi = [].
Proof. intros H. unfold range. apply seqZ_nil. lia. Qed.

Lemma range_snoc (lo : Z) (k : nat) :
  range lo (lo + Z.of_nat (S k)) = range lo (lo + Z.of_nat k) ++ [lo + Z.of_nat k].
Proof.
  unfold range.
  replace (lo + Z.of_nat (S k) - lo) with (Z.of_nat (S k)) by lia.
  replace (lo + Z.of_nat k - lo) with (Z.of_nat k) by lia.
  apply seqZ_S.
Qed.

(** One more turn of the loop adds the new bound. *)
Lemma fact_step (n : Z) : 0 <= n -> fact (n + 1) = fact n + (n + 1).
Proof.
  intros Hn. unfold fact.
  replace (n + 1 + 1) with (1 + Z.of_nat (S (Z.to_nat n))) by lia.
  rewrite range_snoc, foldl_app. simpl.
  replace (1 + Z.of_nat (Z.to_nat n)) with (n + 1) by lia.
  reflexivity.
Qed.

(** The running total, without division. *)
Lemma fact_twice (n : Z) : 0 <= n -> 2 * fact n = 2 + n * (n + 1).
Proof.
  revert n. apply natlike_ind.
  - reflexivity.
  - intros n Hn IH. unfold Z.succ. rewrite fact_step by exact Hn. lia.
Qed.

(** ** The accumulator on values *)

(** The loop of [fact] on a list of integers never leaves the integers
    and does not touch the state. *)
Lemma for_each_add (l : list Z) (x : Z) (st : state) :
  for_each (fun x i => py_add x i) (VInt <$> l) (VInt x) st
  = (Ok (VInt (foldl (fun x i => x + i) x l)), st).
Proof.
  revert x. induction l as [|i l IH]; intros x; simpl.
  - reflexivity.
  - unfold bind. simpl. apply IH.
Qed.

(** On an integer argument [fact_py] computes [fact] and leaves the state
    as it found it. *)
Lemma fact_py_int (n : Z) (st : state) :
  fact_py (VInt n) st = (Ok (VInt (fact n)), st).
Proof.
  unfold fact_py, bind. simpl.
  rewrite for_each_add. reflexivity.
Qed.

(** An argument that is not an integer reaches the error branch. *)
Example fact_py_of_string (st : state) :
  fact_py (VStr "5") st
  = (Raise (TypeError "can only concatenate str"), st).
Proof. reflexivity. Qed.

Example fact_py_of_None (st : state) :
  fact_py VNone st
  = (Raise (TypeError "unsupported operand type(s) for +"), st).
Proof. reflexivity. Qed.

(** Where the namespace does not bind [range], a call of [fact] is
    [fact_py]. *)
Lemma fact_call_builtin_range (ver : py_version) (v : value) (st : state) :
  globals st !! "range"%string = None -> fact_call ver v st = fact_py v st.
Proof.
  intros H. unfold fact_call, fact_py, bind, load_name. rewrite H.
  replace (is_builtin "range") with true by reflexivity. cbv beta iota.
  destruct (py_add v (VInt 1) st) as [[hi|e|] st1]; reflexivity.
Qed.

(** A call of [fact] on an integer leaves the namespace as it found it,
    and its result and what it writes are the same whatever standard
    output holds. *)
Lemma fact_call_frame (ver : py_version) (n : Z) (g : gmap string value) :
  exists (r : result value) (w : string -> string),
    forall out : string,
      fact_call ver (VInt n) (mkState g out) = (r, mkState g (w out)).
Proof.
  destruct (g !! "range"%string) as [f|] eqn:E.
  - assert (Hf : forall out,
      fact_call ver (VInt n) (mkState g out)
      = (let x := VInt 1 in
         r <- call ver f [VInt 1; VInt (n + 1)] [] ;;
         items <- py_iter r ;;
         x <- for_each (fun x i => py_add x i) items x ;;
         ret x) (mkState g out)).
    { intros out. unfold fact_call, bind, load_name. simpl. rewrite E.
      reflexivity. }
    destruct f as [|b|z|s|l|lo hi|m|c attrs|self| |fn|b].
    12: {
      destruct (String.eqb b "print") eqn:Ep.
      - exists (Raise (TypeError "object is not iterable")),
          (fun out => out +:+ (join " " [pretty 1; pretty (n + 1)] +:+ newline)).
        intros out. rewrite Hf. unfold bind, call. rewrite Ep. reflexivity.
      - destruct (String.eqb b "range") eqn:Er.
        + exists (Ok (VInt (fact n))), (fun out => out).
          intros out. rewrite Hf. unfold bind, call. rewrite Ep, Er.
          simpl. rewrite for_each_add. reflexivity.
        + exists Unmodelled, (fun out => out).
          intros out. rewrite Hf. unfold bind, call. rewrite Ep, Er.
          reflexivity. }
    8: {
      destruct (String.eqb c "Item") eqn:Ec.
      - exists (Raise (TypeError "__init__() takes 1 positional argument")),
          (fun out => out).
        intros out. rewrite Hf. unfold bind, call. rewrite Ec. reflexivity.
      - exists (Raise (TypeError "takes no arguments")), (fun out => out).
        intros out. rewrite Hf. unfold bind, call. rewrite Ec. reflexivity. }
    all: eexists; exists (fun out => out); intros out; rewrite Hf;
      reflexivity.
  - exists (Ok (VInt (fact n))), (fun out => out). intros out.
    rewrite fact_call_builtin_range by exact E. apply fact_py_int.
Qed.

Example fact_one : fact 1 = 2.
Proof. reflexivity. Qed.

(** What applying [fact] to each element of the expected sequence gives. *)
Example fact_over_nums : fact <$> nums_expected = [2; 4; 7; 11; 16].
Proof. reflexivity. Qed.

(** [print] on the expected sequence writes the text the specification
    names, then the newline. *)
Lemma print_nums (st : state) :
  builtin_print [VList (VInt <$> nums_expected)]
    [("end"%string, VStr newline)] st
  = (Ok VNone,
     mkState (globals st) (stdout st +:+ "[1, 2, 3, 4, 5]" +:+ newline)).
Proof. reflexivity. Qed.

(** ** The module *)

Lemma module_prefix_ok (modname : string) :
  (stmt_import_enum ;; stmt_class_Item) (initial_state modname)
  = (Ok tt, state_at_MenuOptions modname).
Proof. reflexivity. Qed.

Lemma run_module_eq (ver : py_version) (modname : string) :
  run_module ver modname
  = (Raise (MenuOptions_error ver), state_at_MenuOptions modname).
Proof. destruct ver; vm_compute; reflexivity. Qed.

(** The module never binds the name [range]. *)
Lemma module_keeps_range (ver : py_version) (modname : string) :
  globals (snd (run_module ver modname)) !! "range"%string = None.
Proof. rewrite run_module_eq. vm_compute. reflexivity. Qed.

(** With every definition bound and [__name__] equal to ["__main__"] the
    guard of line 27 lets the driver block run. *)
Lemma stmt_main_runs_driver (ver : py_version) :
  stmt_main ver (state_at_main "__main__")
  = driver ver (state_at_main "__main__").
Proof. reflexivity. Qed.

(** Imported under another name, the guard skips the driver block. *)
Lemma stmt_main_skips_driver (ver : py_version) :
  stmt_main ver (state_at_main "example1")
  = (Ok tt, state_at_main "example1").
Proof. reflexivity. Qed.

(** ** Claims about the accumulator *)

(** C1: for every non-negative integer [n], [fact n] is
    [1 + n*(n+1)/2]; in particular [fact 5] is 16. *)
Theorem fact_closed_form (n : Z) :
  0 <= n -> fact n = 1 + n * (n + 1) / 2 /\ fact 5 = 16.
Proof.
  intros Hn. split; [|reflexivity].
  pose proof (fact_twice n Hn) as H.
  replace (n * (n + 1)) with ((fact n - 1) * 2) by lia.
  rewrite Z.div_mul by lia. lia.
Qed.

Lemma fact_closed_form_witness :
  0 <= 5 /\ fact 5 = 1 + 5 * (5 + 1) / 2 /\ fact 5 = 16.
Proof. split; [lia | apply (fact_closed_form 5); lia]. Defined.

(** C4: for every negative integer [n] the range of the loop is empty and
    [fact] returns the initial value 1; on values, the call returns the
    integer 1 and raises nothing. *)
Theorem fact_negative (n : Z) (st : state) :
  n < 0 ->
  range 1 (n + 1) = [] /\ fact n = 1
  /\ fact_py (VInt n) st = (Ok (VInt 1), st).
Proof.
  intros Hn.
  assert (Hr : range 1 (n + 1) = []) by (apply range_empty; lia).
  assert (Hf : fact n = 1) by (unfold fact; rewrite Hr; reflexivity).
  split; [exact Hr|]. split; [exact Hf|].
  rewrite fact_py_int, Hf. reflexivity.
Qed.

Lemma fact_negative_witness :
  -3 < 0 /\ range 1 (-3 + 1) = [] /\ fact (-3) = 1
  /\ fact_py (VInt (-3)) (initial_state "__main__")
     = (Ok (VInt 1), initial_state "__main__").
Proof.
  split; [lia | apply (fact_negative (-3) (initial_state "__main__")); lia].
Defined.

(** C5: [fact 0] is 1: the range of the loop is empty and the result is
    the initial value. *)
Theorem fact_zero (st : state) :
  range 1 (0 + 1) = [] /\ fact 0 = 1
  /\ fact_py (VInt 0) st = (Ok (VInt 1), st).
Proof.
  split; [reflexivity|]. split; [reflexivity|].
  rewrite fact_py_int. reflexivity.
Qed.

(** C7: [fact] is deterministic.  Called twice in a row with the same
    integer, in any state, it gives the same result both times (the same
    value, or the same exception when the name [range] is bound to
    something else than the builtin): it keeps no state of its own, and a
    call leaves the global namespace, the one thing its result depends
    on, as it found it.  In the namespace that the module builds the
    result is [fact n] and nothing is written. *)
Theorem fact_deterministic (ver : py_version) (n : Z) (st : state)
    (modname : string) :
  fst (fact_call ver (VInt n) (snd (fact_call ver (VInt n) st)))
  = fst (fact_call ver (VInt n) st)
  /\ globals (snd (fact_call ver (VInt n) st)) = globals st
  /\ fact_call ver (VInt n) (state_at_main modname)
     = (Ok (VInt (fact n)), state_at_main modname).
Proof.
  destruct st as [g out].
  destruct (fact_call_frame ver n g) as (r & w & H).
  rewrite (H out). simpl. rewrite (H (w out)). simpl.
  split; [reflexivity|]. split; [reflexivity|].
  rewrite fact_call_builtin_range by (vm_compute; reflexivity).
  apply fact_py_int.
Qed.

(** C8: on a non-negative integer [fact] raises nothing, returns an
    integer, and has no effect on the global namespace or on standard
    output. *)
Theorem fact_py_nonneg (n : Z) (st : state) :
  0 <= n ->
  exists z : Z,
    fact_py (VInt n) st = (Ok (VInt z), st) /\ z = 1 + n * (n + 1) / 2.
Proof.
  intros Hn. exists (fact n). split.
  - apply fact_py_int.
  - pose proof (fact_twice n Hn) as H.
    replace (n * (n + 1)) with ((fact n - 1) * 2) by lia.
    rewrite Z.div_mul by lia. lia.
Qed.

Lemma fact_py_nonneg_witness :
  0 <= 5 /\
  exists z : Z,
    fact_py (VInt 5) (initial_state "__main__")
    = (Ok (VInt z), initial_state "__main__")
    /\ z = 1 + 5 * (5 + 1) / 2.
Proof.
  split; [lia | apply (fact_py_nonneg 5 (initial_state "__main__")); lia].
Defined.

(** ** Claims about the module *)

(** C9: whatever its [__name__], the module stops with an exception at
    line 13.  The import and the class [Item] have run; the call of
    [enum.Enum] on the class [MenuOptions] raises; [MenuOptions] and
    [fact] are never bound, the driver block is not reached and standard
    output is empty. *)
Theorem module_raises_at_MenuOptions (ver : py_version) (modname : string) :
  exists (e : exn) (st : state),
    run_module ver modname = (Raise e, st)
    /\ (stmt_import_enum ;; stmt_class_Item) (initial_state modname)
       = (Ok tt, st)
    /\ call ver VEnumBase [MenuOptions_class] [] st = (Raise e, st)
    /\ stmt_class_MenuOptions ver st = (Raise e, st)
    /\ globals st !! "MenuOptions"%string = None
    /\ globals st !! "fact"%string = None
    /\ stdout st = EmptyString.
Proof.
  exists (MenuOptions_error ver), (state_at_MenuOptions modname).
  split; [apply run_module_eq|].
  split; [apply module_prefix_ok|].
  destruct ver; repeat split; vm_compute; reflexivity.
Qed.

(** C10: in any state whose global namespace does not bind [List], the
    first statement of the driver block raises [NameError]: nothing is
    bound, nothing is printed.  That holds in particular once every
    definition of the module is bound. *)
Theorem driver_raises_NameError (ver : py_version) (st : state) :
  globals st !! "List"%string = None ->
  driver ver st = (Raise (NameError "List"), st)
  /\ stdout (snd (driver ver st)) = stdout st
  /\ is_builtin "List" = false /\ is_builtin "list" = true.
Proof.
  intros H.
  assert (E : driver ver st = (Raise (NameError "List"), st)).
  { unfold driver, bind, load_name. rewrite H. reflexivity. }
  rewrite E. repeat split; reflexivity.
Qed.

Lemma driver_raises_NameError_witness :
  globals (state_at_main "__main__") !! "List"%string = None
  /\ driver Py_from_3_12 (state_at_main "__main__")
     = (Raise (NameError "List"), state_at_main "__main__")
  /\ stdout (snd (driver Py_from_3_12 (state_at_main "__main__")))
     = stdout (state_at_main "__main__")
  /\ is_builtin "List" = false /\ is_builtin "list" = true.
Proof.
  split; [vm_compute; reflexivity |].
  apply (driver_raises_NameError Py_from_3_12 (state_at_main "__main__")).
  vm_compute; reflexivity.
Defined.

(** ** What the run does where the specification expects output *)

(** C2: run as the top-level program, the module writes nothing to
    standard output, where the specification expects the sequence twice. *)
Theorem run_main_stdout (ver : py_version) :
  stdout (snd (run_module ver "__main__")) = EmptyString
  /\ stdout (snd (run_module ver "__main__")) <> stdout_expected.
Proof. rewrite run_module_eq. split; [reflexivity | discriminate]. Qed.

(** C3: run as the top-level program, the module binds neither [nums] nor
    [facts]: no sequence is built and [fact] is applied to nothing. *)
Theorem run_main_no_sequence (ver : py_version) :
  globals (snd (run_module ver "__main__")) !! "nums"%string = None
  /\ globals (snd (run_module ver "__main__")) !! "facts"%string = None.
Proof. rewrite run_module_eq. split; vm_compute; reflexivity. Qed.

(** C6: run as the top-level program, the module ends with an uncaught
    exception, exit status 1, having written nothing. *)
Theorem run_main_exit_status (ver : py_version) :
  exit_status (fst (run_module ver "__main__")) = Some 1
  /\ stdout (snd (run_module ver "__main__")) = EmptyString.
Proof. rewrite run_module_eq. split; reflexivity. Qed.

(** * Further properties *)

(** ** The accumulator *)

(** X1: one more turn of the loop adds the new bound to the total. *)
Theorem fact_recurrence (n : Z) :
  0 <= n -> fact (n + 1) = fact n + (n + 1).
Proof. exact (fact_step n). Qed.

Lemma fact_recurrence_witness :
  0 <= 4 /\ fact (4 + 1) = fact 4 + (4 + 1).
Proof. split; [lia | apply (fact_recurrence 4); lia]. Defined.

(** X2: on the non-negative integers [fact] is strictly increasing. *)
Theorem fact_strictly_increasing (m n : Z) :
  0 <= m < n -> fact m < fact n.
Proof.
  intros [Hm Hmn].
  pose proof (fact_twice m Hm) as H1.
  assert (Hn : 0 <= n) by lia.
  pose proof (fact_twice n Hn) as H2.
  nia.
Qed.

Lemma fact_strictly_increasing_witness :
  0 <= 2 < 5 /\ fact 2 < fact 5.
Proof. split; [lia | apply (fact_strictly_increasing 2 5); lia]. Defined.

Lemma fact_nonpos (n : Z) : n <= 0 -> fact n = 1.
Proof.
  intros Hn. destruct (decide (n = 0)) as [-> | Hne]; [reflexivity|].
  unfold fact. rewrite range_empty by lia. reflexivity.
Qed.

(** The result is never below the initial value. *)
Lemma fact_ge_1 (n : Z) : 1 <= fact n.
Proof.
  destruct (decide (n <= 0)) as [Hn|Hn].
  - rewrite (fact_nonpos n Hn). lia.
  - assert (H0 : 0 <= n) by lia.
    pose proof (fact_twice n H0) as H. nia.
Qed.

(** X3: on every integer the result is at least 1 and greater than the
    argument, and it is 1 exactly when the argument is not positive. *)
Theorem fact_bounds (n : Z) :
  1 <= fact n /\ n < fact n /\ (fact n = 1 <-> n <= 0).
Proof.
  destruct (decide (n <= 0)) as [Hn|Hn].
  - rewrite (fact_nonpos n Hn). repeat split; intros; lia.
  - assert (H0 : 0 <= n) by lia.
    pose proof (fact_twice n H0) as H.
    repeat split; intros; nia.
Qed.

Lemma factorial_step (n : Z) :
  0 <= n -> factorial (n + 1) = factorial n * (n + 1).
Proof.
  intros Hn. unfold factorial.
  replace (n + 1 + 1) with (1 + Z.of_nat (S (Z.to_nat n))) by lia.
  rewrite range_snoc, foldl_app. simpl.
  replace (1 + Z.of_nat (Z.to_nat n)) with (n + 1) by lia.
  reflexivity.
Qed.

Lemma fact_below_factorial (k : nat) :
  fact (4 + Z.of_nat k) < factorial (4 + Z.of_nat k).
Proof.
  induction k as [|k IH].
  - vm_compute. reflexivity.
  - replace (4 + Z.of_nat (S k)) with (4 + Z.of_nat k + 1) by lia.
    rewrite fact_step, factorial_step by lia.
    pose proof (fact_ge_1 (4 + Z.of_nat k)) as Hb.
    nia.
Qed.

(** X4: despite its name [fact] is not the factorial: on the non-negative
    integers the two agree at 0 only. *)
Theorem fact_is_not_factorial (n : Z) :
  0 <= n -> (fact n = factorial n <-> n = 0).
Proof.
  intros Hn. split.
  - intros E.
    destruct (decide (n < 4)) as [Hlt|Hge].
    + assert (Hc : n = 0 \/ n = 1 \/ n = 2 \/ n = 3) by lia.
      destruct Hc as [-> | [-> | [-> | ->]]];
        [reflexivity | vm_compute in E; discriminate E ..].
    + pose proof (fact_below_factorial (Z.to_nat (n - 4))) as Hlt.
      replace (4 + Z.of_nat (Z.to_nat (n - 4))) with n in Hlt by lia.
      lia.
  - intros ->. reflexivity.
Qed.

Lemma fact_is_not_factorial_witness :
  0 <= 3 /\ (fact 3 = factorial 3 <-> 3 = 0).
Proof. split; [lia | apply (fact_is_not_factorial 3); lia]. Defined.

(** X5: which arguments [fact] accepts.  Where [range] is the builtin,
    a call returns the integer [fact z] when the argument stands for the
    integer [z] (a bool counts as 0 or 1) and raises [TypeError] at
    [n + 1] on [None], a string, a list, a range, a module, a class, an
    item or a function; in both cases it leaves the global namespace and
    standard output as they were. *)
Theorem fact_call_cases (ver : py_version) (v : value) (st : state) :
  globals st !! "range"%string = None ->
  is_builtin_object v = false ->
  fact_call ver v st
  = match as_int v with
    | Some z => (Ok (VInt (fact z)), st)
    | None => (Raise (TypeError (add_error v)), st)
    end.
Proof.
  intros Hr Hv. rewrite (fact_call_builtin_range ver v st Hr).
  destruct v as [|b|z|s|l|lo hi|m|c attrs|self| |f|b];
    try discriminate Hv; try reflexivity.
  - unfold fact_py, bind. simpl. rewrite for_each_add. reflexivity.
  - exact (fact_py_int z st).
Qed.

Lemma fact_call_cases_witness :
  globals (state_at_main "__main__") !! "range"%string = None
  /\ is_builtin_object (VStr "5") = false
  /\ fact_call Py_upto_3_11 (VStr "5") (state_at_main "__main__")
     = (Raise (TypeError "can only concatenate str"),
        state_at_main "__main__").
Proof.
  split; [vm_compute; reflexivity |]. split; [reflexivity |].
  apply (fact_call_cases Py_upto_3_11 (VStr "5") (state_at_main "__main__")).
  - vm_compute; reflexivity.
  - reflexivity.
Defined.

(** ** The class [Item] *)

Lemma pretty_N_char_no_space (d : N) : pretty_N_char d <> space.
Proof.
  unfold pretty_N_char, space.
  repeat (discriminate || case_match).
Qed.

Lemma pretty_N_go_no_space (x : N) (s : string) :
  no_space s -> no_space (pretty_N_go x s).
Proof.
  revert s. induction (N.lt_wf_0 x) as [x _ IH]; intros s Hs.
  destruct (decide (x = 0)%N) as [-> | Hx].
  - rewrite pretty_N_go_0. exact Hs.
  - rewrite pretty_N_go_step by lia. apply IH.
    + apply N.div_lt; lia.
    + split; [apply pretty_N_char_no_space | exact Hs].
Qed.

Lemma pretty_N_no_space (x : N) : no_space (pretty x).
Proof.
  unfold pretty, pretty_N. destruct (decide (x = 0)%N).
  - split; [discriminate | exact I].
  - apply pretty_N_go_no_space. exact I.
Qed.

(** The decimal text of an integer has no space in it. *)
Lemma pretty_Z_no_space (z : Z) : no_space (pretty z).
Proof.
  destruct z as [|p|p]; unfold pretty, pretty_Z.
  - split; [discriminate | exact I].
  - apply (pretty_N_no_space (N.pos p)).
  - split; [discriminate | apply (pretty_N_no_space (N.pos p))].
Qed.

(** Two texts that agree up to their first space agree before and after
    it. *)
Lemma split_at_space (a a' r r' : string) :
  no_space a -> no_space a' ->
  a +:+ String space r = a' +:+ String space r' -> a = a' /\ r = r'.
Proof.
  revert a'. induction a as [|c a IH]; intros [|c' a'] Ha Ha' E; simpl in *.
  - injection E as E. auto.
  - injection E as Ec E. destruct Ha' as [Hc _]. congruence.
  - injection E as Ec E. destruct Ha as [Hc _]. congruence.
  - injection E as Ec E. destruct Ha as [_ Ha], Ha' as [_ Ha'].
    destruct (IH a' Ha Ha' E) as [-> ->]. subst. auto.
Qed.

(** X7: the text of an item determines the item: two items with the same
    [__repr__] have the same [id] and the same [name]. *)
Theorem Item_repr_inj (a b : Item) :
  Item_repr a = Item_repr b -> a = b.
Proof.
  destruct a as [i n], b as [j m]. unfold Item_repr. simpl.
  intros E. injection E as E.
  change (" name: " +:+ n)%string with (String space ("name: " +:+ n)) in E.
  change (" name: " +:+ m)%string with (String space ("name: " +:+ m)) in E.
  apply split_at_space in E; [|apply pretty_Z_no_space ..].
  destruct E as [Ei En].
  apply (inj pretty) in Ei. injection En as En.
  change (n = m) in En. subst. reflexivity.
Qed.

Lemma Item_repr_inj_witness :
  Item_repr (mkItem 7 "a") = Item_repr (mkItem (3 + 4) "a")
  /\ mkItem 7 "a" = mkItem (3 + 4) "a".
Proof.
  split; [reflexivity | apply (Item_repr_inj (mkItem 7 "a") (mkItem (3 + 4) "a"))].
  reflexivity.
Defined.

(** ** The statements of the module *)


(** The driver block is its two halves in sequence. *)
Lemma driver_split (ver : py_version) (st : state) :
  driver ver st = (driver_build ver ;; driver_prints ver) st.
Proof.
  unfold driver, driver_build, driver_prints, bind.
  repeat match goal with
  | |- context [match ?m ?s with _ => _ end] =>
      lazymatch type of s with
      | state => destruct (m s) as [[?|?|] ?]
      end
  end; reflexivity.
Qed.

Lemma load_name_global (x : string) (v : value) (st : state) :
  globals st !! x = Some v -> load_name x st = (Ok v, st).
Proof. intros H. unfold load_name. rewrite H. reflexivity. Qed.

Lemma load_name_builtin (x : string) (st : state) :
  globals st !! x = None -> is_builtin x = true ->
  load_name x st = (Ok (VBuiltin x), st).
Proof. intros H Hb. unfold load_name. rewrite H, Hb. reflexivity. Qed.

(** One [print(v, end=newline)] through the builtin. *)
Lemma call_print (ver : py_version) (v : value) (t : string) (st : state) :
  py_str v = Some t ->
  call ver (VBuiltin "print") [v] [("end"%string, VStr newline)] st
  = (Ok VNone, mkState (globals st) (stdout st +:+ (t +:+ newline))).
Proof.
  intros Ht. unfold call. simpl. unfold builtin_print. simpl.
  rewrite Ht. reflexivity.
Qed.

(** X10: the two [print] statements of lines 30-31.  When [print] is the
    builtin and [nums] is bound to a value with text [t], they append [t]
    and a newline to standard output twice, and change nothing else;
    [facts] is not read. *)
Theorem driver_prints_twice (ver : py_version) (st : state) (v : value)
    (t : string) :
  globals st !! "print"%string = None ->
  globals st !! "nums"%string = Some v ->
  py_str v = Some t ->
  driver_prints ver st
  = (Ok tt,
     mkState (globals st)
       ((stdout st +:+ (t +:+ newline)) +:+ (t +:+ newline))).
Proof.
  intros Hp Hn Ht.
  unfold driver_prints, bind.
  rewrite (load_name_builtin "print" st Hp eq_refl). cbv beta iota.
  rewrite (load_name_global "nums" v st Hn). cbv beta iota.
  rewrite (call_print ver v t st Ht). cbv beta iota.
  set (st1 := mkState (globals st) (stdout st +:+ (t +:+ newline))).
  rewrite (load_name_builtin "print" st1 Hp eq_refl). cbv beta iota.
  rewrite (load_name_global "nums" v st1 Hn). cbv beta iota.
  rewrite (call_print ver v t st1 Ht). reflexivity.
Qed.

Lemma driver_prints_twice_witness :
  let st :=
    mkState
      (<[ "nums"%string := VList (VInt <$> nums_expected) ]>
         (globals (state_at_main "__main__")))
      EmptyString in
  globals st !! "print"%string = None
  /\ globals st !! "nums"%string = Some (VList (VInt <$> nums_expected))
  /\ py_str (VList (VInt <$> nums_expected)) = Some "[1, 2, 3, 4, 5]"%string
  /\ driver_prints Py_from_3_12 st
     = (Ok tt,
        mkState (globals st)
          ((stdout st +:+ ("[1, 2, 3, 4, 5]" +:+ newline))
           +:+ ("[1, 2, 3, 4, 5]" +:+ newline))).
Proof.
  intros st.
  assert (Hp : globals st !! "print"%string = None)
    by (vm_compute; reflexivity).
  assert (Hn : globals st !! "nums"%string
               = Some (VList (VInt <$> nums_expected)))
    by (vm_compute; reflexivity).
  assert (Ht : py_str (VList (VInt <$> nums_expected))
               = Some "[1, 2, 3, 4, 5]"%string)
    by reflexivity.
  split; [exact Hp|]. split; [exact Hn|]. split; [exact Ht|].
  exact (driver_prints_twice Py_from_3_12 st _ _ Hp Hn Ht).
Defined.
